(** * Rent-vs-buy projection engine: a shallow embedding of [calculate]

    The engine of the calculator is one function, [calculate], which runs a
    year loop with an inner twelve-month loop over a handful of numeric
    accumulators and then summarises the last yearly snapshot.

    The source computes on JavaScript numbers.  The embedding keeps the
    number type abstract behind the interface [Number] (the arithmetic the
    source uses and nothing else), so that everything which depends only on
    the shape of the computation is proved for every interpretation of the
    operations.  The arithmetic invariants are proved for the instance of
    exact rationals, [Q_Number]: no rounding, no overflow, no NaN.  Where the
    source would divide by zero (a loan term of 0), [Q] returns 0; every
    invariant below that depends on the payment assumes a loan term of at
    least one year.

    The two integer-valued inputs, the loan term and the horizon, are
    integers: the year loop counts with the horizon, and the number of
    payments is the exponent of [Math.pow]. *)

From Stdlib Require Import ZArith QArith Qpower Qminmax Qround Qabs Qfield Lqa Lia List Bool.
Import ListNotations.

Set Implicit Arguments.

(** ** The arithmetic of the source *)

Class Number (num : Type) : Type := {
  of_Q : Q -> num;            (* a numeric literal, or an integer value *)
  nadd : num -> num -> num;   (* x + y *)
  nsub : num -> num -> num;   (* x - y *)
  nmul : num -> num -> num;   (* x * y *)
  ndiv : num -> num -> num;   (* x / y *)
  nneg : num -> num;          (* -x *)
  npow : num -> Z -> num;     (* Math.pow(x, k), k an integer *)
  nmax : num -> num -> num;   (* Math.max(x, y) *)
  ngtb : num -> num -> bool;  (* x > y *)
  neqb : num -> num -> bool   (* x === y *)
}.

Declare Scope num_scope.
Delimit Scope num_scope with num.
Notation "x + y" := (nadd x y) : num_scope.
Notation "x - y" := (nsub x y) : num_scope.
Notation "x * y" := (nmul x y) : num_scope.
Notation "x / y" := (ndiv x y) : num_scope.
Notation "- x" := (nneg x) : num_scope.
Notation "x >? y" := (ngtb x y) (at level 70, no associativity) : num_scope.
Notation "x =? y" := (neqb x y) (at level 70, no associativity) : num_scope.

(** Exact rational arithmetic.  Every result is kept in lowest terms
    ([Qred q == q]), which changes no value and keeps the numbers small
    enough to run the loops. *)
#[export] Instance Q_Number : Number Q := {
  of_Q := Qred;
  nadd := fun x y => Qred (x + y);
  nsub := fun x y => Qred (x - y);
  nmul := fun x y => Qred (x * y);
  ndiv := fun x y => Qred (x / y);
  nneg := fun x => Qred (- x);
  npow := fun x k => Qred (x ^ k);
  nmax := Qmax;
  ngtb := fun x y => negb (Qle_bool x y);
  neqb := Qeq_bool
}.

(** ** The data model *)

Record Inputs (num : Type) : Type := mkInputs {
  homePrice : num;
  downPaymentPct : num;
  mortgageRate : num;
  loanTermYears : Z;
  propertyTaxRate : num;
  homeInsurance : num;
  maintenancePct : num;
  hoaMonthly : num;
  homeAppreciation : num;
  monthlyRent : num;
  rentIncrease : num;
  investmentReturn : num;
  yearsToAnalyze : Z
}.

Module YearlySnapshot.
Record t (num : Type) : Type := mk {
  year : Z;
  cumulativeBuyCost : num;
  cumulativeRentCost : num;
  cumulativeTrueBuyCost : num;
  buyNetWorth : num;
  rentNetWorth : num
}.
End YearlySnapshot.

Inductive Recommendation : Type := buy | rent | neutral.

Module CalculationResult.
Record t (num : Type) : Type := mk {
  monthlyMortgage : num;
  monthlyBuyTotal : num;
  monthlyRentTotal : num;
  breakevenYear : option Z;
  yearlyData : list (YearlySnapshot.t num);
  totalBuyCost : num;
  totalRentCost : num;
  buyNetWorthFinal : num;
  rentNetWorthFinal : num;
  recommendation : Recommendation;
  downPayment : num
}.
End CalculationResult.

(** Reading a property of [undefined] throws. *)
Inductive Exception : Type := TypeError.

(** The variables the loops of [calculate] assign to. *)
Record Loop (num : Type) : Type := mkLoop {
  cumulativeBuyCost : num;
  cumulativeRentCost : num;
  cumulativeTrueBuyCost : num;
  remainingBalance : num;
  currentHomeValue : num;
  currentRent : num;
  rentSavings : num;
  buySavings : num;
  breakevenYear : option Z;
  yearlyData : list (YearlySnapshot.t num)
}.

Unset Implicit Arguments.

(** [a[k]] for an integer [k]: [undefined] outside the array. *)
Definition index {A : Type} (a : list A) (k : Z) : option A :=
  if (k <? 0)%Z then None else nth_error a (Z.to_nat k).

(** The values [year] takes in [for (year = 1; year <= n; year++)]. *)
Definition years (n : Z) : list Z := map Z.of_nat (seq 1 (Z.to_nat n)).

Section Calculate.

Context {num : Type} {N : Number num}.
Local Open Scope num_scope.

Local Notation "0" := (of_Q 0%Q) : num_scope.
Local Notation "1" := (of_Q 1%Q) : num_scope.
Local Notation "12" := (of_Q 12%Q) : num_scope.
Local Notation "100" := (of_Q 100%Q) : num_scope.

Variable inputs : Inputs num.

(** *** Derived constants *)

Definition downPayment : num := homePrice inputs * (downPaymentPct inputs / 100).
Definition loanAmount : num := homePrice inputs - downPayment.
Definition monthlyRate : num := mortgageRate inputs / 100 / 12.
Definition numPayments : Z := (loanTermYears inputs * 12)%Z.

Definition monthlyMortgage : num :=
  if monthlyRate =? 0
  then loanAmount / of_Q (inject_Z numPayments)
  else (loanAmount * (monthlyRate * npow (1 + monthlyRate) numPayments)) /
       (npow (1 + monthlyRate) numPayments - 1).

Definition monthlyPropertyTax : num :=
  (homePrice inputs * (propertyTaxRate inputs / 100)) / 12.
Definition monthlyInsurance : num := homeInsurance inputs / 12.
Definition monthlyMaintenance : num :=
  (homePrice inputs * (maintenancePct inputs / 100)) / 12.
Definition monthlyBuyTotal : num :=
  monthlyMortgage + monthlyPropertyTax + monthlyInsurance + monthlyMaintenance
  + hoaMonthly inputs.

Definition annualAppreciation : num := homeAppreciation inputs / 100.
Definition annualInvestment : num := investmentReturn inputs / 100.
Definition annualRentIncrease : num := rentIncrease inputs / 100.

(** *** The loops *)

Definition init : Loop num :=
  {| cumulativeBuyCost := downPayment;
     cumulativeRentCost := 0;
     cumulativeTrueBuyCost := 0;
     remainingBalance := loanAmount;
     currentHomeValue := homePrice inputs;
     currentRent := monthlyRent inputs;
     rentSavings := 0;
     buySavings := 0;
     breakevenYear := None;
     yearlyData := [] |}.

Definition interestPayment (s : Loop num) : num := remainingBalance s * monthlyRate.
Definition principalPayment (s : Loop num) : num := monthlyMortgage - interestPayment s.

Definition totalMonthlyBuy (s : Loop num) : num :=
  monthlyMortgage + monthlyPropertyTax + monthlyInsurance
  + (currentHomeValue s * (maintenancePct inputs / 100)) / 12
  + hoaMonthly inputs.

Definition totalMonthlyRent (s : Loop num) : num := currentRent s.

Definition trueMonthlyCost (s : Loop num) : num :=
  interestPayment s + monthlyPropertyTax + monthlyInsurance
  + (currentHomeValue s * (maintenancePct inputs / 100)) / 12
  + hoaMonthly inputs.

Definition diff (s : Loop num) : num := totalMonthlyBuy s - totalMonthlyRent s.

(** The body of the month loop.  Every right-hand side reads the variables
    as they are when the source evaluates it: [interestPayment] before the
    balance is updated, the rest from variables the body has not yet
    assigned. *)
Definition month_body (s : Loop num) : Loop num :=
  {| cumulativeBuyCost := cumulativeBuyCost s + totalMonthlyBuy s;
     cumulativeRentCost := cumulativeRentCost s + totalMonthlyRent s;
     cumulativeTrueBuyCost := cumulativeTrueBuyCost s + trueMonthlyCost s;
     remainingBalance := nmax 0 (remainingBalance s - principalPayment s);
     currentHomeValue := currentHomeValue s;
     currentRent := currentRent s;
     rentSavings :=
       if diff s >? 0
       then rentSavings s + diff s * (1 + annualInvestment / 12)
       else rentSavings s;
     buySavings :=
       if diff s >? 0
       then buySavings s
       else buySavings s + (- diff s) * (1 + annualInvestment / 12);
     breakevenYear := breakevenYear s;
     yearlyData := yearlyData s |}.

Definition closingCostsSell (s : Loop num) : num := currentHomeValue s * of_Q 0.06%Q.
Definition homeEquity (s : Loop num) : num :=
  currentHomeValue s - remainingBalance s - closingCostsSell s.
Definition investedDownPayment (year : Z) : num :=
  downPayment * npow (1 + annualInvestment) year.

(** The two composites the source computes and never reads. *)
Definition buyNetWorth (s : Loop num) (year : Z) : num :=
  homeEquity s + buySavings s - downPayment * npow (1 + annualInvestment) year.
Definition rentNetWorth (s : Loop num) (year : Z) : num :=
  investedDownPayment year + rentSavings s - downPayment.

(** The growth of home value, rent and the two accounts at the end of a year. *)
Definition grow (s : Loop num) : Loop num :=
  {| cumulativeBuyCost := cumulativeBuyCost s;
     cumulativeRentCost := cumulativeRentCost s;
     cumulativeTrueBuyCost := cumulativeTrueBuyCost s;
     remainingBalance := remainingBalance s;
     currentHomeValue := currentHomeValue s * (1 + annualAppreciation);
     currentRent := currentRent s * (1 + annualRentIncrease);
     rentSavings := rentSavings s * (1 + annualInvestment);
     buySavings := buySavings s * (1 + annualInvestment);
     breakevenYear := breakevenYear s;
     yearlyData := yearlyData s |}.

(** The snapshot pushed at the end of year [year], from the grown state. *)
Definition snapshot (s : Loop num) (year : Z) : YearlySnapshot.t num :=
  {| YearlySnapshot.year := year;
     YearlySnapshot.cumulativeBuyCost := cumulativeBuyCost s;
     YearlySnapshot.cumulativeRentCost := cumulativeRentCost s;
     YearlySnapshot.cumulativeTrueBuyCost := cumulativeTrueBuyCost s;
     YearlySnapshot.buyNetWorth := homeEquity s;
     YearlySnapshot.rentNetWorth := investedDownPayment year + rentSavings s |}.

(** The net-worth part of the year body: push, then the breakeven test. *)
Definition record (s : Loop num) (year : Z) : Loop num :=
  {| cumulativeBuyCost := cumulativeBuyCost s;
     cumulativeRentCost := cumulativeRentCost s;
     cumulativeTrueBuyCost := cumulativeTrueBuyCost s;
     remainingBalance := remainingBalance s;
     currentHomeValue := currentHomeValue s;
     currentRent := currentRent s;
     rentSavings := rentSavings s;
     buySavings := buySavings s;
     breakevenYear :=
       match breakevenYear s with
       | None =>
           if homeEquity s >? investedDownPayment year + rentSavings s
           then Some year else None
       | Some y => Some y
       end;
     yearlyData := yearlyData s ++ [snapshot s year] |}.

Definition year_end (s : Loop num) (year : Z) : Loop num := record (grow s) year.

(** The body of the year loop. *)
Definition year_body (s : Loop num) (year : Z) : Loop num :=
  year_end (Nat.iter 12 month_body s) year.

Definition simulate : Loop num :=
  fold_left year_body (years (yearsToAnalyze inputs)) init.

(** [buyNetWorth > rentNetWorth] on a snapshot: the test of the
    recommendation, and (on the values just pushed) of the breakeven year. *)
Definition buy_exceeds (s : YearlySnapshot.t num) : bool :=
  YearlySnapshot.buyNetWorth s >? YearlySnapshot.rentNetWorth s.

(** *** The function itself *)

Definition calculate : Exception + CalculationResult.t num :=
  let s := simulate in
  match index (yearlyData s) (Z.of_nat (length (yearlyData s)) - 1) with
  | None => inl TypeError
  | Some finalData =>
      let buyBetter := buy_exceeds finalData in
      inr {| CalculationResult.monthlyMortgage := monthlyMortgage;
             CalculationResult.monthlyBuyTotal := monthlyBuyTotal;
             CalculationResult.monthlyRentTotal := monthlyRent inputs;
             CalculationResult.breakevenYear := breakevenYear s;
             CalculationResult.yearlyData := yearlyData s;
             CalculationResult.totalBuyCost := cumulativeBuyCost s;
             CalculationResult.totalRentCost := cumulativeRentCost s;
             CalculationResult.buyNetWorthFinal := YearlySnapshot.buyNetWorth finalData;
             CalculationResult.rentNetWorthFinal := YearlySnapshot.rentNetWorth finalData;
             CalculationResult.recommendation := if buyBetter then buy else rent;
             CalculationResult.downPayment := downPayment |}
  end.

(** *** The run, state by state *)

(** The variables after [k] iterations of the year loop. *)
Definition after_years (k : nat) : Loop num :=
  fold_left year_body (years (Z.of_nat k)) init.

(** The variables after [t] iterations of the month body in all: [t / 12]
    whole years, then [t mod 12] months of the next one. *)
Definition at_month (t : nat) : Loop num :=
  Nat.iter (t mod 12) month_body (after_years (t / 12)).

(** The snapshot of year [k], read off the variables at the end of that
    iteration of the year loop. *)
Definition snapshot_at (k : nat) : YearlySnapshot.t num :=
  snapshot (after_years k) (Z.of_nat k).

End Calculate.

(** ** Ranges of the inputs

    The engine checks nothing about its inputs; these are the ranges the
    invariants need. *)

(** Every rate and every currency amount is non-negative. *)
Definition nonnegative_inputs (i : Inputs Q) : Prop :=
  (0 <= homePrice i /\ 0 <= downPaymentPct i /\ 0 <= mortgageRate i
   /\ 0 <= propertyTaxRate i /\ 0 <= homeInsurance i /\ 0 <= maintenancePct i
   /\ 0 <= hoaMonthly i /\ 0 <= homeAppreciation i /\ 0 <= monthlyRent i
   /\ 0 <= rentIncrease i /\ 0 <= investmentReturn i)%Q.

(** ** Sample inputs *)

(** A one-year loan at 6% on a 120000 home, 20% down, analysed over two
    years. *)
Definition sample : Inputs Q :=
  {| homePrice := 120000; downPaymentPct := 20; mortgageRate := 6;
     loanTermYears := 1; propertyTaxRate := 1.2; homeInsurance := 1200;
     maintenancePct := 1; hoaMonthly := 50; homeAppreciation := 4;
     monthlyRent := 900; rentIncrease := 3; investmentReturn := 7;
     yearsToAnalyze := 2 |}.

(** The scenario the calculator opens with: a 30-year loan at 6.9% on a
    420000 home, 13% down, analysed over ten years. *)
Definition baseline : Inputs Q :=
  {| homePrice := 420000; downPaymentPct := 13; mortgageRate := 6.9;
     loanTermYears := 30; propertyTaxRate := 1.1; homeInsurance := 2200;
     maintenancePct := 1; hoaMonthly := 0; homeAppreciation := 4;
     monthlyRent := 1850; rentIncrease := 3.5; investmentReturn := 7;
     yearsToAnalyze := 10 |}.


(** The same home in a market that gains 30% a year. *)
Definition sample_booming : Inputs Q :=
  {| homePrice := 120000; downPaymentPct := 20; mortgageRate := 6;
     loanTermYears := 1; propertyTaxRate := 1.2; homeInsurance := 1200;
     maintenancePct := 1; hoaMonthly := 50; homeAppreciation := 30;
     monthlyRent := 900; rentIncrease := 3; investmentReturn := 7;
     yearsToAnalyze := 2 |}.



(** The horizon 0. *)
Definition sample_no_years : Inputs Q :=
  {| homePrice := 120000; downPaymentPct := 20; mortgageRate := 6;
     loanTermYears := 1; propertyTaxRate := 1.2; homeInsurance := 1200;
     maintenancePct := 1; hoaMonthly := 50; homeAppreciation := 4;
     monthlyRent := 900; rentIncrease := 3; investmentReturn := 7;
     yearsToAnalyze := 0 |}.

(** Inputs outside the ranges.  All four are interest-free and cost nothing
    but the payment. *)





(** ** The page around the engine

    The page keeps one [Inputs] record as its state, hands it to [calculate]
    on every change, and shows figures derived from the result.  Its markup,
    styling and strings are left out; what follows is the arithmetic. *)

(** [set('yearsToAnalyze')(v)]: the state with one field replaced. *)
Definition set_yearsToAnalyze {num : Type} (v : Z) (prev : Inputs num) : Inputs num :=
  {| homePrice := homePrice prev; downPaymentPct := downPaymentPct prev;
     mortgageRate := mortgageRate prev; loanTermYears := loanTermYears prev;
     propertyTaxRate := propertyTaxRate prev; homeInsurance := homeInsurance prev;
     maintenancePct := maintenancePct prev; hoaMonthly := hoaMonthly prev;
     homeAppreciation := homeAppreciation prev; monthlyRent := monthlyRent prev;
     rentIncrease := rentIncrease prev; investmentReturn := investmentReturn prev;
     yearsToAnalyze := v |}.

Module InputSlider.

(** The numeric props of a slider. *)
Record Props : Type := mk { value : Q; min : Q; max : Q; step : Q }.

(** The share of the track left of the thumb, in percent. *)
Definition pct (p : Props) : Q := (value p - min p) / (max p - min p) * 100.

Definition is_integer (x : Q) : bool := Qeq_bool x (inject_Z (Qfloor x)).

(** The digits [x.toString()] writes after the point, for a decimal fraction
    [x] that is written without an exponent: as few as give [x] exactly.
    A number is written without an exponent from a millionth up to,
    not including, 10^21 ([plainly_written]). *)
Definition plainly_written (x : Q) : Prop :=
  (1 # 1000000) <= x /\ x < inject_Z (10 ^ 21).

Fixpoint digits_after_point (fuel : nat) (x : Q) : nat :=
  match fuel with
  | O => O
  | S fuel' => if is_integer x then O else S (digits_after_point fuel' (x * 10))
  end.

Definition decimals (p : Props) : nat := digits_after_point 20 (step p).

(** [Math.round]: the nearest integer, a half going up. *)
Definition round (x : Q) : Z := Qfloor (x + (1 # 2)).

(** What [parseFloat(x.toFixed(d))] returns: [x] to [d] digits after the
    point, a half going away from zero. *)
Definition toFixed (x : Q) (d : nat) : Q :=
  let scale := inject_Z (10 ^ Z.of_nat d) in
  if Qle_bool 0 x
  then inject_Z (Qfloor (x * scale + (1 # 2))) / scale
  else - (inject_Z (Qfloor (- x * scale + (1 # 2))) / scale).

Definition clamped (p : Props) (num : Q) : Q := Qmin (max p) (Qmax (min p) num).
Definition snapped (p : Props) (num : Q) : Q :=
  inject_Z (round (clamped p num / step p)) * step p.

(** [commit], on what [parseFloat] made of the text ([None] for [NaN]): the
    value handed to [onChange], if any. *)
Definition commit (p : Props) (num : option Q) : option Q :=
  match num with
  | Some num => Some (toFixed (snapped p num) (decimals p))
  | None => None
  end.

End InputSlider.

Module App.

(** The sliders of the input panel, in the order of the page. *)
Definition sliders (inputs : Inputs Q) : list InputSlider.Props :=
  [ InputSlider.mk (homePrice inputs) 100000 2000000 5000;
    InputSlider.mk (downPaymentPct inputs) 3 50 0.5;
    InputSlider.mk (mortgageRate inputs) 2 12 0.05;
    InputSlider.mk (inject_Z (loanTermYears inputs)) 10 30 5;
    InputSlider.mk (propertyTaxRate inputs) 0.3 3.5 0.05;
    InputSlider.mk (homeInsurance inputs) 500 5000 100;
    InputSlider.mk (maintenancePct inputs) 0.5 3 0.1;
    InputSlider.mk (hoaMonthly inputs) 0 1000 25;
    InputSlider.mk (monthlyRent inputs) 500 10000 50;
    InputSlider.mk (rentIncrease inputs) 0 10 0.25;
    InputSlider.mk (homeAppreciation inputs) 0 8 0.25;
    InputSlider.mk (investmentReturn inputs) 2 12 0.25;
    InputSlider.mk (inject_Z (yearsToAnalyze inputs)) 1 30 1 ].



(** What [{result.breakevenYear && <div>Yr ...</div>}] renders: nothing for
    [null], the bare number for the falsy 0, the badge otherwise. *)
Inductive Badge : Type := nothing | zero | badge (year : Z).

Definition breakevenBadge (r : CalculationResult.t Q) : Badge :=
  match CalculationResult.breakevenYear r with
  | None => nothing
  | Some y => if (y =? 0)%Z then zero else badge y
  end.




(** The state holds, for every slider, a value within the slider's range. *)
Definition within_sliders (inputs : Inputs Q) : Prop :=
  Forall (fun p => (InputSlider.min p <= InputSlider.value p <= InputSlider.max p)%Q)
         (sliders inputs).

End App.

(** The result of a run that returned. *)
Definition returned {num : Type} (c : Exception + CalculationResult.t num)
  (r : CalculationResult.t num) : CalculationResult.t num :=
  match c with inr r' => r' | inl _ => r end.

(** The mortgage rate slider of the page, at its default value. *)
Definition sample_slider : InputSlider.Props := InputSlider.mk 6.9 2 12 0.05.

(** What [commit] needs of a slider: a step written without an exponent that
    is a decimal fraction, and a non-empty range whose ends are on the step
    grid. *)
Definition well_formed (p : InputSlider.Props) : bool :=
  (Qle_bool (1 # 1000000) (InputSlider.step p)
   && negb (Qle_bool (inject_Z (10 ^ 21)) (InputSlider.step p))
   && InputSlider.is_integer
        (InputSlider.step p * inject_Z (10 ^ Z.of_nat (InputSlider.decimals p)))
   && Qle_bool (InputSlider.min p) (InputSlider.max p)
   && InputSlider.is_integer (InputSlider.min p / InputSlider.step p)
   && InputSlider.is_integer (InputSlider.max p / InputSlider.step p))%Q.

(** ** How the run unfolds

    These facts hold for every interpretation of the arithmetic. *)

Section Run.

Context {num : Type} {N : Number num}.
Variable inputs : Inputs num.

Lemma years_of_nat_S (k : nat) :
  years (Z.of_nat (S k)) = years (Z.of_nat k) ++ [Z.of_nat (S k)].
Proof.
  unfold years. rewrite !Nat2Z.id, seq_S, map_app. reflexivity.
Qed.

Lemma after_years_S (k : nat) :
  after_years inputs (S k)
  = year_body inputs (after_years inputs k) (Z.of_nat (S k)).
Proof.
  unfold after_years. rewrite years_of_nat_S, fold_left_app. reflexivity.
Qed.

Lemma simulate_after_years :
  simulate inputs = after_years inputs (Z.to_nat (yearsToAnalyze inputs)).
Proof.
  unfold simulate, after_years, years. rewrite Nat2Z.id. reflexivity.
Qed.


Lemma at_month_year (k : nat) : at_month inputs (12 * k) = after_years inputs k.
Proof.
  unfold at_month.
  replace ((12 * k) mod 12)%nat with 0%nat
    by (apply Nat.mod_unique with (q := k); lia).
  replace ((12 * k) / 12)%nat with k
    by (apply Nat.div_unique with (r := 0%nat); lia).
  reflexivity.
Qed.

(** The loop ends in the state of month [12 * yearsToAnalyze]. *)
Lemma simulate_at_month :
  simulate inputs = at_month inputs (12 * Z.to_nat (yearsToAnalyze inputs)).
Proof. rewrite at_month_year. apply simulate_after_years. Qed.

(** One more month: the month body, followed at every twelfth month by the
    end of the year. *)
Lemma at_month_S (t : nat) :
  at_month inputs (S t)
  = if Nat.eqb (S t mod 12) 0
    then year_end inputs (month_body inputs (at_month inputs t)) (Z.of_nat (S t / 12))
    else month_body inputs (at_month inputs t).
Proof.
  pose proof (Nat.div_mod_eq t 12) as E.
  pose proof (Nat.mod_upper_bound t 12 ltac:(lia)) as B.
  set (q := (t / 12)%nat) in *. set (r := (t mod 12)%nat) in *.
  destruct (Nat.eq_dec r 11) as [R | R].
  - assert (Hm : (S t mod 12 = 0)%nat)
      by (symmetry; apply Nat.mod_unique with (q := S q); lia).
    assert (Hd : (S t / 12 = S q)%nat)
      by (symmetry; apply Nat.div_unique with (r := 0%nat); lia).
    rewrite Hm, Hd. cbn [Nat.eqb].
    unfold at_month. rewrite Hm, Hd. fold q r. rewrite R.
    cbn [Nat.iter nat_rect]. rewrite after_years_S. reflexivity.
  - assert (Hm : (S t mod 12 = S r)%nat)
      by (symmetry; apply Nat.mod_unique with (q := q); lia).
    assert (Hd : (S t / 12 = q)%nat)
      by (symmetry; apply Nat.div_unique with (r := S r); lia).
    rewrite Hm. cbn [Nat.eqb].
    unfold at_month. rewrite Hm, Hd. fold q r. reflexivity.
Qed.


(** *** The snapshots *)

Lemma yearlyData_months (n : nat) (s : Loop num) :
  yearlyData (Nat.iter n (month_body inputs) s) = yearlyData s.
Proof. induction n as [| n IH]; [reflexivity | exact IH]. Qed.

Lemma breakevenYear_months (n : nat) (s : Loop num) :
  breakevenYear (Nat.iter n (month_body inputs) s) = breakevenYear s.
Proof. induction n as [| n IH]; [reflexivity | exact IH]. Qed.

Lemma yearlyData_year_end (s : Loop num) (y : Z) :
  yearlyData (year_end inputs s y)
  = yearlyData s ++ [snapshot inputs (year_end inputs s y) y].
Proof. reflexivity. Qed.

Lemma breakevenYear_year_end (s : Loop num) (y : Z) :
  breakevenYear (year_end inputs s y)
  = match breakevenYear s with
    | None =>
        if buy_exceeds (snapshot inputs (year_end inputs s y) y)
        then Some y else None
    | Some y0 => Some y0
    end.
Proof. reflexivity. Qed.

Lemma yearlyData_after_years (n : nat) :
  yearlyData (after_years inputs n) = map (snapshot_at inputs) (seq 1 n).
Proof.
  induction n as [| n IH]; [reflexivity |].
  rewrite seq_S, map_app, <- IH. cbn [map]. unfold snapshot_at.
  change (1 + n)%nat with (S n).
  rewrite after_years_S. unfold year_body.
  rewrite yearlyData_year_end, yearlyData_months. reflexivity.
Qed.

Lemma yearlyData_length (n : nat) : length (yearlyData (after_years inputs n)) = n.
Proof. rewrite yearlyData_after_years, length_map, length_seq. reflexivity. Qed.

Lemma yearlyData_nth (n k : nat) :
  (1 <= k <= n)%nat ->
  nth_error (yearlyData (after_years inputs n)) (k - 1) = Some (snapshot_at inputs k).
Proof.
  intros Hk. rewrite yearlyData_after_years.
  rewrite nth_error_map, nth_error_seq.
  destruct (Nat.ltb_spec (k - 1) n) as [_ | L]; [| lia].
  cbn. f_equal. f_equal. lia.
Qed.

Lemma index_last (A : Type) (l : list A) (x : A) :
  index (l ++ [x]) (Z.of_nat (length (l ++ [x])) - 1) = Some x.
Proof.
  unfold index. rewrite length_app. cbn [length].
  destruct (Z.ltb_spec (Z.of_nat (length l + 1) - 1) 0) as [L | _]; [lia |].
  replace (Z.to_nat (Z.of_nat (length l + 1) - 1)) with (length l) by lia.
  rewrite nth_error_app2, Nat.sub_diag by lia. reflexivity.
Qed.

(** [calculate] fails exactly on an empty [yearlyData], and otherwise
    summarises the snapshot of the last year. *)
Lemma calculate_after_years (n : nat) :
  Z.to_nat (yearsToAnalyze inputs) = S n ->
  exists r,
    calculate inputs = inr r
    /\ CalculationResult.yearlyData r = yearlyData (after_years inputs (S n))
    /\ CalculationResult.breakevenYear r = breakevenYear (after_years inputs (S n))
    /\ CalculationResult.recommendation r
       = (if buy_exceeds (snapshot_at inputs (S n)) then buy else rent).
Proof.
  intros Hn. unfold calculate. rewrite simulate_after_years, Hn.
  rewrite yearlyData_after_years, seq_S, map_app. cbn [map].
  rewrite index_last. eexists. split; [reflexivity |].
  cbn [CalculationResult.yearlyData CalculationResult.breakevenYear
       CalculationResult.recommendation].
  repeat split; reflexivity.
Qed.

Lemma calculate_no_years :
  Z.to_nat (yearsToAnalyze inputs) = 0%nat ->
  yearlyData (simulate inputs) = [] /\ calculate inputs = inl TypeError.
Proof.
  intros Hn. unfold calculate. rewrite simulate_after_years, Hn. split; reflexivity.
Qed.

End Run.

(** ** The shape of the result

    The results of this section are about which values the engine records
    and compares, not about their size: they hold for every [Number]. *)

Section Shape.

Context {num : Type} {N : Number num}.
Variable inputs : Inputs num.
Local Open Scope num_scope.

Local Notation "1" := (of_Q 1%Q) : num_scope.
Local Notation "12" := (of_Q 12%Q) : num_scope.
Local Notation "100" := (of_Q 100%Q) : num_scope.

Lemma horizon_nat :
  (1 <= yearsToAnalyze inputs)%Z ->
  exists n, Z.to_nat (yearsToAnalyze inputs) = S n.
Proof.
  intros H. exists (Nat.pred (Z.to_nat (yearsToAnalyze inputs))). lia.
Qed.

Lemma nth_error_yearlyData (n k : nat) (s : YearlySnapshot.t num) :
  nth_error (yearlyData (after_years inputs n)) k = Some s ->
  (k < n)%nat /\ s = snapshot_at inputs (S k).
Proof.
  intros H.
  assert (L : (k < n)%nat).
  { rewrite <- (yearlyData_length inputs n). apply nth_error_Some. congruence. }
  split; [exact L |].
  pose proof (yearlyData_nth inputs n (S k) ltac:(lia)) as E.
  cbn [Nat.sub] in E. rewrite Nat.sub_0_r in E. congruence.
Qed.

(** Where the breakeven year stands after [n] years: at the first year
    whose snapshot passes the test, if there is one. *)
Lemma breakevenYear_first (n : nat) :
  match breakevenYear (after_years inputs n) with
  | Some y =>
      exists k, y = Z.of_nat k /\ (1 <= k <= n)%nat
        /\ buy_exceeds (snapshot_at inputs k) = true
        /\ forall k', (1 <= k' < k)%nat -> buy_exceeds (snapshot_at inputs k') = false
  | None =>
      forall k', (1 <= k' <= n)%nat -> buy_exceeds (snapshot_at inputs k') = false
  end.
Proof.
  induction n as [| n IH].
  - cbn. intros k' Hk'. lia.
  - assert (E : snapshot_at inputs (S n)
                = snapshot inputs (year_end inputs
                    (Nat.iter 12 (month_body inputs) (after_years inputs n))
                    (Z.of_nat (S n))) (Z.of_nat (S n))).
    { unfold snapshot_at. rewrite after_years_S. reflexivity. }
    rewrite after_years_S. unfold year_body.
    rewrite breakevenYear_year_end, breakevenYear_months, <- E.
    destruct (breakevenYear (after_years inputs n)) as [y |].
    + destruct IH as (k & Hy & Hk & Hc & Hf).
      exists k. repeat split; auto; lia.
    + destruct (buy_exceeds (snapshot_at inputs (S n))) eqn:C.
      * exists (S n). repeat split; auto; try lia.
        intros k' Hk'. apply IH. lia.
      * intros k' Hk'. destruct (Nat.eq_dec k' (S n)) as [-> | Ne]; [exact C |].
        apply IH. lia.
Qed.

Lemma breakevenYear_kept (k k' : nat) (y : Z) :
  (k <= k')%nat ->
  breakevenYear (after_years inputs k) = Some y ->
  breakevenYear (after_years inputs k') = Some y.
Proof.
  intros L H. induction L as [| m L IH]; [exact H |].
  rewrite after_years_S. unfold year_body.
  rewrite breakevenYear_year_end, breakevenYear_months, IH. reflexivity.
Qed.

(** The recommendation follows the test [>] on the last snapshot, whatever
    the numbers are; [neutral] is never produced. *)
Lemma recommendation_by_test :
  ((1 <= yearsToAnalyze inputs)%Z ->
   exists r last,
     calculate inputs = inr r
     /\ index (CalculationResult.yearlyData r)
              (Z.of_nat (length (CalculationResult.yearlyData r)) - 1) = Some last
     /\ YearlySnapshot.year last = yearsToAnalyze inputs
     /\ (CalculationResult.recommendation r = buy <-> buy_exceeds last = true)
     /\ (CalculationResult.recommendation r = rent <-> buy_exceeds last = false))
  /\ (forall r, calculate inputs = inr r ->
                CalculationResult.recommendation r <> neutral).
Proof.
  split.
  - intros H. destruct (horizon_nat H) as [n Hn].
    destruct (calculate_after_years inputs n Hn) as (r & Hr & Hd & _ & Hrec).
    exists r, (snapshot_at inputs (S n)).
    split; [exact Hr |]. rewrite Hd, Hrec.
    split.
    { rewrite yearlyData_after_years, seq_S, map_app. cbn [map].
      apply index_last. }
    split; [cbn; lia |].
    destruct (buy_exceeds (snapshot_at inputs (S n))); split; split;
      intros; congruence.
  - intros r Hr. unfold calculate in Hr.
    destruct (index _ _) as [finalData |]; [| discriminate].
    injection Hr as <-. cbn [CalculationResult.recommendation].
    destruct (buy_exceeds finalData); discriminate.
Qed.

(** Within the horizon [calculate] succeeds, and its [yearlyData] holds at
    position [k - 1] the snapshot of year [k]. *)
Lemma snapshot_recorded (k : nat) :
  (1 <= k <= Z.to_nat (yearsToAnalyze inputs))%nat ->
  exists r,
    calculate inputs = inr r
    /\ nth_error (CalculationResult.yearlyData r) (k - 1)
       = Some (snapshot_at inputs k).
Proof.
  intros Hk.
  destruct (Z.to_nat (yearsToAnalyze inputs)) as [| n] eqn:Hn; [lia |].
  destruct (calculate_after_years inputs n Hn) as (r & Hr & Hd & _).
  exists r. split; [exact Hr |]. rewrite Hd.
  apply yearlyData_nth. exact Hk.
Qed.

(** C2. The snapshot of every year [k] of the horizon records as
    [buyNetWorth] the home equity of the end-of-year variables,
    [currentHomeValue - remainingBalance - currentHomeValue * 0.06], and as
    [rentNetWorth] the down payment compounded over [k] years plus
    [rentSavings].  The two composites the source computes besides are other
    values: the internal [buyNetWorth] is the recorded one plus [buySavings]
    minus the compounded down payment, the internal [rentNetWorth] the
    recorded one minus the down payment. *)
Theorem snapshot_net_worth (k : nat) :
  (1 <= k <= Z.to_nat (yearsToAnalyze inputs))%nat ->
  exists r s,
    calculate inputs = inr r
    /\ nth_error (CalculationResult.yearlyData r) (k - 1) = Some s
    /\ YearlySnapshot.year s = Z.of_nat k
    /\ YearlySnapshot.buyNetWorth s
       = currentHomeValue (after_years inputs k)
         - remainingBalance (after_years inputs k)
         - currentHomeValue (after_years inputs k) * of_Q 0.06%Q
    /\ YearlySnapshot.rentNetWorth s
       = homePrice inputs * (downPaymentPct inputs / 100)
         * npow (1 + investmentReturn inputs / 100) (Z.of_nat k)
         + rentSavings (after_years inputs k)
    /\ buyNetWorth inputs (after_years inputs k) (Z.of_nat k)
       = YearlySnapshot.buyNetWorth s + buySavings (after_years inputs k)
         - downPayment inputs * npow (1 + annualInvestment inputs) (Z.of_nat k)
    /\ rentNetWorth inputs (after_years inputs k) (Z.of_nat k)
       = YearlySnapshot.rentNetWorth s - downPayment inputs.
Proof.
  intros Hk.
  destruct (snapshot_recorded k Hk) as (r & Hr & Hs).
  exists r, (snapshot_at inputs k).
  split; [exact Hr |]. split; [exact Hs |].
  repeat split; reflexivity.
Qed.

(** The breakeven year is the first year whose snapshot passes the test
    [>], whatever the numbers are. *)
Lemma breakevenYear_by_test :
  (forall y, breakevenYear (simulate inputs) = Some y ->
     exists k s,
       y = Z.of_nat k /\ (1 <= y <= yearsToAnalyze inputs)%Z
       /\ nth_error (yearlyData (simulate inputs)) (k - 1) = Some s
       /\ YearlySnapshot.year s = y
       /\ buy_exceeds s = true
       /\ forall k' s', (k' < k - 1)%nat ->
            nth_error (yearlyData (simulate inputs)) k' = Some s' ->
            buy_exceeds s' = false)
  /\ (breakevenYear (simulate inputs) = None ->
      forall s, In s (yearlyData (simulate inputs)) -> buy_exceeds s = false)
  /\ (forall k k' y, (k <= k')%nat ->
        breakevenYear (after_years inputs k) = Some y ->
        breakevenYear (after_years inputs k') = Some y)
  /\ (forall r, calculate inputs = inr r ->
        CalculationResult.breakevenYear r = breakevenYear (simulate inputs)
        /\ CalculationResult.yearlyData r = yearlyData (simulate inputs)).
Proof.
  rewrite simulate_after_years.
  set (n := Z.to_nat (yearsToAnalyze inputs)).
  pose proof (breakevenYear_first n) as F.
  split; [| split; [| split]].
  - intros y Hy. rewrite Hy in F. destruct F as (k & -> & Hk & Hc & Hf).
    exists k, (snapshot_at inputs k).
    split; [reflexivity |]. split; [lia |].
    split; [apply yearlyData_nth; exact Hk |].
    split; [reflexivity |]. split; [exact Hc |].
    intros k' s' Hk' Hs'. apply nth_error_yearlyData in Hs' as [_ ->].
    apply Hf. lia.
  - intros Hb s Hs. rewrite Hb in F.
    apply In_nth_error in Hs as [k' Hs'].
    apply nth_error_yearlyData in Hs' as [L ->]. apply F. lia.
  - intros k k' y. apply breakevenYear_kept.
  - intros r Hr. unfold calculate in Hr. rewrite simulate_after_years in Hr.
    fold n in Hr. destruct (index _ _); [| discriminate].
    injection Hr as <-. split; reflexivity.
Qed.

(** C6. In every simulated month the difference [totalMonthlyBuy -
    totalMonthlyRent], when positive, goes to [rentSavings] scaled by
    [1 + investmentReturn/100/12] and leaves [buySavings] alone, and
    otherwise its opposite goes to [buySavings] under the same factor and
    [rentSavings] is left alone; the month body is all that happens to the
    two accounts between two months, except that after every twelfth month
    the end of the year multiplies both once by [1 + investmentReturn/100]. *)
Theorem two_layer_compounding (t : nat) :
  let s := at_month inputs t in
  let s' := month_body inputs s in
  let d := totalMonthlyBuy inputs s - totalMonthlyRent s in
  let monthly := 1 + investmentReturn inputs / 100 / 12 in
  let annual := 1 + investmentReturn inputs / 100 in
  rentSavings s'
  = (if d >? of_Q 0%Q then rentSavings s + d * monthly else rentSavings s)
  /\ buySavings s'
     = (if d >? of_Q 0%Q then buySavings s else buySavings s + (- d) * monthly)
  /\ (Nat.eqb (S t mod 12) 0 = false ->
      rentSavings (at_month inputs (S t)) = rentSavings s'
      /\ buySavings (at_month inputs (S t)) = buySavings s')
  /\ (Nat.eqb (S t mod 12) 0 = true ->
      rentSavings (at_month inputs (S t)) = rentSavings s' * annual
      /\ buySavings (at_month inputs (S t)) = buySavings s' * annual).
Proof.
  intros s s' d monthly annual.
  split; [reflexivity |]. split; [reflexivity |].
  split; intros E; rewrite at_month_S, E; split; reflexivity.
Qed.

(** C8. For a positive horizon [calculate] returns a result whose
    [yearlyData] has exactly [yearsToAnalyze] snapshots, the one at
    position [k] (from 0) being that of year [k + 1]; for the horizon 0
    the loop leaves [yearlyData] empty and [calculate] throws on reading
    the last element instead of returning. *)
Theorem horizon_length :
  ((1 <= yearsToAnalyze inputs)%Z ->
   exists r,
     calculate inputs = inr r
     /\ Z.of_nat (length (CalculationResult.yearlyData r)) = yearsToAnalyze inputs
     /\ map (@YearlySnapshot.year num) (CalculationResult.yearlyData r)
        = map Z.of_nat (seq 1 (Z.to_nat (yearsToAnalyze inputs)))
     /\ forall k s, nth_error (CalculationResult.yearlyData r) k = Some s ->
                    YearlySnapshot.year s = (Z.of_nat k + 1)%Z)
  /\ (yearsToAnalyze inputs = 0%Z ->
      yearlyData (simulate inputs) = [] /\ calculate inputs = inl TypeError).
Proof.
  split.
  - intros H. destruct (horizon_nat H) as [n Hn].
    destruct (calculate_after_years inputs n Hn) as (r & Hr & Hd & _).
    exists r. split; [exact Hr |]. rewrite Hd, Hn.
    split; [rewrite yearlyData_length; lia |].
    split.
    + rewrite yearlyData_after_years, map_map. reflexivity.
    + intros k s Hs. apply nth_error_yearlyData in Hs as [_ ->]. cbn. lia.
  - intros H0. apply calculate_no_years. rewrite H0. reflexivity.
Qed.

End Shape.

(** ** Exact arithmetic

    From here on the numbers are rationals.  The instance keeps every result
    in lowest terms; the equations below state each quantity of the source
    with the plain operations of [Q], up to [==]. *)

Ltac exact_arith :=
  cbn [of_Q nadd nsub nmul ndiv nneg npow nmax ngtb neqb Q_Number];
  rewrite ?Qred_correct.

(** Divisions by the constants 100 and 12, as multiplications. *)
Ltac by_constants :=
  unfold Qdiv in *;
  change (/ 100) with (1 # 100) in *;
  change (/ 12) with (1 # 12) in *.

Ltac qlra := by_constants; lra.

Lemma gtb_true (x y : Q) : ngtb x y = true <-> y < x.
Proof.
  cbn. rewrite negb_true_iff. split.
  - intros H. apply Qnot_le_lt. intros C. apply Qle_bool_iff in C. congruence.
  - intros H. destruct (Qle_bool x y) eqn:E; [| reflexivity].
    apply Qle_bool_iff in E. lra.
Qed.

Lemma gtb_false (x y : Q) : ngtb x y = false <-> x <= y.
Proof.
  cbn. rewrite negb_false_iff. apply Qle_bool_iff.
Qed.

Section Exact.

Variable inputs : Inputs Q.
Local Open Scope Q_scope.

Local Notation "'L'" := (loanAmount inputs).
Local Notation "'m'" := (monthlyRate inputs).
Local Notation "'M'" := (monthlyMortgage inputs).
Local Notation "'n'" := (numPayments inputs).

(** *** The derived constants *)

Lemma downPayment_eq :
  downPayment inputs == homePrice inputs * (downPaymentPct inputs / 100).
Proof. unfold downPayment. exact_arith. reflexivity. Qed.

Lemma loanAmount_eq : L == homePrice inputs - downPayment inputs.
Proof. unfold loanAmount. exact_arith. reflexivity. Qed.








(** *** One month *)







(** *** The loan *)







(** *** The balance along the run *)

Local Notation "'B' t" := (remainingBalance (at_month inputs t))
  (at level 9, t at level 9).












(** *** The other variables along the run *)















(** *** The cumulative costs along the run *)










(** *** The properties that rest on the arithmetic *)

(** C1. Whenever the horizon is at least one year, [calculate] returns a
    result whose recommendation is [buy] exactly when the last snapshot's
    [buyNetWorth] is strictly greater than its [rentNetWorth], and [rent]
    exactly when it is not, a tie included; and no result of [calculate],
    for any input, carries [neutral]. *)
Theorem recommendation_from_last_snapshot :
  ((1 <= yearsToAnalyze inputs)%Z ->
   exists r last,
     calculate inputs = inr r
     /\ index (CalculationResult.yearlyData r)
              (Z.of_nat (length (CalculationResult.yearlyData r)) - 1) = Some last
     /\ YearlySnapshot.year last = yearsToAnalyze inputs
     /\ (CalculationResult.recommendation r = buy
         <-> YearlySnapshot.rentNetWorth last < YearlySnapshot.buyNetWorth last)
     /\ (CalculationResult.recommendation r = rent
         <-> YearlySnapshot.buyNetWorth last <= YearlySnapshot.rentNetWorth last))
  /\ (forall r, calculate inputs = inr r ->
                CalculationResult.recommendation r <> neutral).
Proof.
  destruct (recommendation_by_test inputs) as [A N0]. split; [| exact N0].
  intros H. destruct (A H) as (r & last & Hr & Hl & Hy & Hb & Hn).
  exists r, last. repeat split; try assumption.
  - intros E. apply gtb_true, Hb, E.
  - intros E. apply Hb, gtb_true, E.
  - intros E. apply gtb_false, Hn, E.
  - intros E. apply Hn, gtb_false, E.
Qed.



(** C5. [breakevenYear] is the least year of the horizon whose snapshot has
    [buyNetWorth] strictly greater than [rentNetWorth], and null when no
    snapshot has; a year, once set, stays through every later iteration of
    the year loop, whatever the later snapshots are; and the result carries
    the loop's value. *)
Theorem breakevenYear_least :
  (forall y, breakevenYear (simulate inputs) = Some y ->
     exists k s,
       y = Z.of_nat k /\ (1 <= y <= yearsToAnalyze inputs)%Z
       /\ nth_error (yearlyData (simulate inputs)) (k - 1) = Some s
       /\ YearlySnapshot.year s = y
       /\ YearlySnapshot.rentNetWorth s < YearlySnapshot.buyNetWorth s
       /\ forall k' s', (k' < k - 1)%nat ->
            nth_error (yearlyData (simulate inputs)) k' = Some s' ->
            YearlySnapshot.buyNetWorth s' <= YearlySnapshot.rentNetWorth s')
  /\ (breakevenYear (simulate inputs) = None ->
      forall s, In s (yearlyData (simulate inputs)) ->
                YearlySnapshot.buyNetWorth s <= YearlySnapshot.rentNetWorth s)
  /\ (forall k k' y, (k <= k')%nat ->
        breakevenYear (after_years inputs k) = Some y ->
        breakevenYear (after_years inputs k') = Some y)
  /\ (forall r, calculate inputs = inr r ->
        CalculationResult.breakevenYear r = breakevenYear (simulate inputs)
        /\ CalculationResult.yearlyData r = yearlyData (simulate inputs)).
Proof.
  destruct (breakevenYear_by_test inputs) as (A & B0 & C & D).
  split; [| split; [| split]]; [| | exact C | exact D].
  - intros y Hy. destruct (A y Hy) as (k & s & Ek & Hk & Hs & Hys & Hc & Hf).
    exists k, s. repeat split; try assumption; try lia.
    + apply gtb_true, Hc.
    + intros k' s' Hk' Hs'. apply gtb_false, (Hf k' s' Hk' Hs').
  - intros Hb s Hs. apply gtb_false, (B0 Hb s Hs).
Qed.




End Exact.

(** ** The properties on the sample inputs *)

Local Open Scope Q_scope.

(** The engine on the opening scenario: a down payment of 54600, a loan of
    365400 over 360 payments. *)
Example baseline_loan :
  downPayment baseline = 54600
  /\ loanAmount baseline = 365400
  /\ numPayments baseline = 360%Z.
Proof.
  split; [| split]; vm_compute; reflexivity.
Qed.

Lemma recommendation_sample :
  exists r last,
    calculate sample = inr r
    /\ index (CalculationResult.yearlyData r)
             (Z.of_nat (length (CalculationResult.yearlyData r)) - 1) = Some last
    /\ YearlySnapshot.year last = 2%Z
    /\ (CalculationResult.recommendation r = buy
        <-> YearlySnapshot.rentNetWorth last < YearlySnapshot.buyNetWorth last)
    /\ (CalculationResult.recommendation r = rent
        <-> YearlySnapshot.buyNetWorth last <= YearlySnapshot.rentNetWorth last).
Proof.
  apply (proj1 (recommendation_from_last_snapshot sample)). cbn. lia.
Defined.

Lemma snapshot_net_worth_sample :
  exists r s,
    calculate sample = inr r
    /\ nth_error (CalculationResult.yearlyData r) 1 = Some s
    /\ YearlySnapshot.year s = 2%Z
    /\ YearlySnapshot.buyNetWorth s
       = (currentHomeValue (after_years sample 2)
          - remainingBalance (after_years sample 2)
          - currentHomeValue (after_years sample 2) * of_Q 0.06)%num
    /\ YearlySnapshot.rentNetWorth s
       = (homePrice sample * (downPaymentPct sample / of_Q 100)
          * npow (of_Q 1 + investmentReturn sample / of_Q 100) 2
          + rentSavings (after_years sample 2))%num.
Proof.
  destruct (snapshot_net_worth sample 2) as (r & s & H1 & H2 & H3 & H4 & H5 & _).
  - cbn. lia.
  - exists r, s.
    split; [exact H1 |]. split; [exact H2 |]. split; [exact H3 |].
    split; [exact H4 | exact H5].
Defined.



Lemma breakevenYear_sample :
  exists k s,
    1%Z = Z.of_nat k /\ (1 <= 1 <= yearsToAnalyze sample_booming)%Z
    /\ nth_error (yearlyData (simulate sample_booming)) (k - 1) = Some s
    /\ YearlySnapshot.year s = 1%Z
    /\ YearlySnapshot.rentNetWorth s < YearlySnapshot.buyNetWorth s
    /\ forall k' s', (k' < k - 1)%nat ->
         nth_error (yearlyData (simulate sample_booming)) k' = Some s' ->
         YearlySnapshot.buyNetWorth s' <= YearlySnapshot.rentNetWorth s'.
Proof.
  apply (proj1 (breakevenYear_least sample_booming)). vm_compute. reflexivity.
Defined.

Lemma two_layer_compounding_sample :
  (rentSavings (at_month sample 12)
   = rentSavings (month_body sample (at_month sample 11))
     * (of_Q 1 + investmentReturn sample / of_Q 100))%num
  /\ (buySavings (at_month sample 12)
      = buySavings (month_body sample (at_month sample 11))
        * (of_Q 1 + investmentReturn sample / of_Q 100))%num.
Proof.
  apply (proj2 (proj2 (proj2 (two_layer_compounding sample 11)))). reflexivity.
Defined.


Lemma horizon_length_sample :
  (exists r,
     calculate sample = inr r
     /\ Z.of_nat (length (CalculationResult.yearlyData r)) = 2%Z
     /\ map (@YearlySnapshot.year Q) (CalculationResult.yearlyData r) = [1%Z; 2%Z]
     /\ forall k s, nth_error (CalculationResult.yearlyData r) k = Some s ->
                    YearlySnapshot.year s = (Z.of_nat k + 1)%Z)
  /\ yearlyData (simulate sample_no_years) = []
  /\ calculate sample_no_years = inl TypeError.
Proof.
  split.
  - apply (proj1 (horizon_length sample)). cbn. lia.
  - apply (proj2 (horizon_length sample_no_years)). reflexivity.
Defined.



(** ** Inputs outside the ranges *)






(** ** More of the engine: the summary and the horizon *)

Section Summary.

Context {num : Type} {N : Number num}.
Variable inputs : Inputs num.

Lemma yearlyData_last (n : nat) :
  yearlyData (after_years inputs (S n))
  = map (snapshot_at inputs) (seq 1 n) ++ [snapshot_at inputs (S n)].
Proof. rewrite yearlyData_after_years, seq_S, map_app. reflexivity. Qed.

(** X1. For a horizon of at least one year the totals and the final net
    worths of the result are the fields of the last snapshot: the loop's
    running totals and the values it pushed last never part. *)
Theorem summary_of_last_snapshot :
  (1 <= yearsToAnalyze inputs)%Z ->
  exists r last,
    calculate inputs = inr r
    /\ index (CalculationResult.yearlyData r)
             (Z.of_nat (length (CalculationResult.yearlyData r)) - 1) = Some last
    /\ CalculationResult.totalBuyCost r = YearlySnapshot.cumulativeBuyCost last
    /\ CalculationResult.totalRentCost r = YearlySnapshot.cumulativeRentCost last
    /\ CalculationResult.buyNetWorthFinal r = YearlySnapshot.buyNetWorth last
    /\ CalculationResult.rentNetWorthFinal r = YearlySnapshot.rentNetWorth last.
Proof.
  intros H. destruct (horizon_nat inputs H) as [n Hn].
  exists
    {| CalculationResult.monthlyMortgage := monthlyMortgage inputs;
       CalculationResult.monthlyBuyTotal := monthlyBuyTotal inputs;
       CalculationResult.monthlyRentTotal := monthlyRent inputs;
       CalculationResult.breakevenYear := breakevenYear (after_years inputs (S n));
       CalculationResult.yearlyData := yearlyData (after_years inputs (S n));
       CalculationResult.totalBuyCost := cumulativeBuyCost (after_years inputs (S n));
       CalculationResult.totalRentCost := cumulativeRentCost (after_years inputs (S n));
       CalculationResult.buyNetWorthFinal :=
         YearlySnapshot.buyNetWorth (snapshot_at inputs (S n));
       CalculationResult.rentNetWorthFinal :=
         YearlySnapshot.rentNetWorth (snapshot_at inputs (S n));
       CalculationResult.recommendation :=
         if buy_exceeds (snapshot_at inputs (S n)) then buy else rent;
       CalculationResult.downPayment := downPayment inputs |},
    (snapshot_at inputs (S n)).
  cbn [CalculationResult.yearlyData CalculationResult.totalBuyCost
       CalculationResult.totalRentCost CalculationResult.buyNetWorthFinal
       CalculationResult.rentNetWorthFinal].
  split.
  - unfold calculate. cbv zeta. rewrite simulate_after_years, Hn.
    rewrite (yearlyData_last n) at 1 2. rewrite index_last. reflexivity.
  - split; [rewrite yearlyData_last; apply index_last |].
    repeat split.
Qed.

(** The state after [k] years does not depend on the horizon. *)
Lemma month_body_horizon (v : Z) (s : Loop num) :
  month_body (set_yearsToAnalyze v inputs) s = month_body inputs s.
Proof. reflexivity. Qed.

Lemma months_horizon (v : Z) (j : nat) (s : Loop num) :
  Nat.iter j (month_body (set_yearsToAnalyze v inputs)) s
  = Nat.iter j (month_body inputs) s.
Proof.
  induction j as [| j IH]; [reflexivity |].
  rewrite !Nat.iter_succ, IH. apply month_body_horizon.
Qed.

Lemma year_end_horizon (v : Z) (s : Loop num) (y : Z) :
  year_end (set_yearsToAnalyze v inputs) s y = year_end inputs s y.
Proof. reflexivity. Qed.

Lemma after_years_horizon (v : Z) (k : nat) :
  after_years (set_yearsToAnalyze v inputs) k = after_years inputs k.
Proof.
  induction k as [| k IH]; [reflexivity |].
  rewrite !after_years_S. unfold year_body.
  rewrite IH, months_horizon. apply year_end_horizon.
Qed.

Lemma snapshot_at_horizon (v : Z) (k : nat) :
  snapshot_at (set_yearsToAnalyze v inputs) k = snapshot_at inputs k.
Proof.
  unfold snapshot_at. rewrite after_years_horizon.
  generalize (after_years inputs k). intros s. reflexivity.
Qed.

Lemma firstn_seq (k a n : nat) : firstn k (seq a n) = seq a (Nat.min k n).
Proof.
  revert a n. induction k as [| k IH]; intros a [| n]; try reflexivity.
  cbn [firstn seq Nat.min]. rewrite IH. reflexivity.
Qed.

(** X2. Lengthening the horizon only appends: for horizons [1 <= n <= n']
    the snapshots computed for [n] years are the first [n] of those
    computed for [n'], and a breakeven year found within [n] years is the
    one reported for [n']. *)
Theorem horizon_prefix (n n' : Z) :
  (1 <= n <= n')%Z ->
  exists r r',
    calculate (set_yearsToAnalyze n inputs) = inr r
    /\ calculate (set_yearsToAnalyze n' inputs) = inr r'
    /\ CalculationResult.yearlyData r
       = firstn (Z.to_nat n) (CalculationResult.yearlyData r')
    /\ (forall y, CalculationResult.breakevenYear r = Some y ->
                  CalculationResult.breakevenYear r' = Some y).
Proof.
  intros [H1 H2].
  destruct (Z.to_nat n) as [| k] eqn:Hk; [lia |].
  destruct (Z.to_nat n') as [| k'] eqn:Hk'; [lia |].
  destruct (calculate_after_years (set_yearsToAnalyze n inputs) k Hk)
    as (r & Hr & Hd & Hb & _).
  destruct (calculate_after_years (set_yearsToAnalyze n' inputs) k' Hk')
    as (r' & Hr' & Hd' & Hb' & _).
  exists r, r'. split; [exact Hr |]. split; [exact Hr' |].
  rewrite Hd, Hd', Hb, Hb', !after_years_horizon.
  split.
  - rewrite !yearlyData_after_years, firstn_map, firstn_seq.
    replace (Nat.min (S k) (S k')) with (S k) by lia. reflexivity.
  - intros y. apply breakevenYear_kept. lia.
Qed.

End Summary.


(** ** More of the engine: the schedule in closed form *)




Section Schedule.

Variable inputs : Inputs Q.
Local Open Scope Q_scope.

Local Notation "'H'" := (homePrice inputs).
Local Notation "'M'" := (monthlyMortgage inputs).
Local Notation "'appreciation'" := (1 + homeAppreciation inputs / 100).
Local Notation "'escalation'" := (1 + rentIncrease inputs / 100).

(** The month's cost besides the maintenance. *)
Local Notation "'fixed_costs'" :=
  (M + H * (propertyTaxRate inputs / 100) / 12 + homeInsurance inputs / 12
   + hoaMonthly inputs).















(** *** The loan *)

Local Notation "'L'" := (loanAmount inputs).
Local Notation "'m'" := (monthlyRate inputs).
Local Notation "'n'" := (numPayments inputs).
Local Notation "'B' t" := (remainingBalance (at_month inputs t))
  (at level 9, t at level 9).


Local Notation "'paid_beyond_costs' t" :=
  (cumulativeBuyCost (at_month inputs t) - cumulativeTrueBuyCost (at_month inputs t))
  (at level 9, t at level 9).









End Schedule.

(** ** The page on the result *)

(** The result of a run of at least one year, field by field. *)
Lemma calculate_value {num : Type} {N : Number num} (inputs : Inputs num) (n : nat) :
  Z.to_nat (yearsToAnalyze inputs) = S n ->
  calculate inputs
  = inr {| CalculationResult.monthlyMortgage := monthlyMortgage inputs;
           CalculationResult.monthlyBuyTotal := monthlyBuyTotal inputs;
           CalculationResult.monthlyRentTotal := monthlyRent inputs;
           CalculationResult.breakevenYear := breakevenYear (after_years inputs (S n));
           CalculationResult.yearlyData := yearlyData (after_years inputs (S n));
           CalculationResult.totalBuyCost := cumulativeBuyCost (after_years inputs (S n));
           CalculationResult.totalRentCost := cumulativeRentCost (after_years inputs (S n));
           CalculationResult.buyNetWorthFinal :=
             YearlySnapshot.buyNetWorth (snapshot_at inputs (S n));
           CalculationResult.rentNetWorthFinal :=
             YearlySnapshot.rentNetWorth (snapshot_at inputs (S n));
           CalculationResult.recommendation :=
             if buy_exceeds (snapshot_at inputs (S n)) then buy else rent;
           CalculationResult.downPayment := downPayment inputs |}.
Proof.
  intros Hn. unfold calculate. cbv zeta. rewrite simulate_after_years, Hn.
  rewrite (yearlyData_last inputs n) at 1 2. rewrite index_last. reflexivity.
Qed.

Section Page.

Variable inputs : Inputs Q.
Local Open Scope Q_scope.


(** X11. The breakeven badge never falls for the falsy 0: a breakeven year
    is at least 1, so the badge shows exactly when a year is set, and
    nothing otherwise. *)
Theorem breakeven_badge :
  (1 <= yearsToAnalyze inputs)%Z ->
  exists r,
    calculate inputs = inr r
    /\ App.breakevenBadge r <> App.zero
    /\ (CalculationResult.breakevenYear r = None -> App.breakevenBadge r = App.nothing)
    /\ (forall y, CalculationResult.breakevenYear r = Some y ->
                  App.breakevenBadge r = App.badge y
                  /\ (1 <= y <= yearsToAnalyze inputs)%Z).
Proof.
  intros H. destruct (horizon_nat inputs H) as [n Hn].
  eexists. split; [apply (calculate_value inputs n Hn) |].
  unfold App.breakevenBadge. cbn [CalculationResult.breakevenYear].
  pose proof (breakevenYear_first inputs (S n)) as F.
  destruct (breakevenYear (after_years inputs (S n))) as [y |].
  - destruct F as (k & -> & Hk & _).
    destruct (Z.eqb_spec (Z.of_nat k) 0) as [Z | NZ]; [lia |].
    split; [discriminate |]. split; [discriminate |].
    intros y Ey. injection Ey as <-. split; [reflexivity | lia].
  - split; [discriminate |]. split; [reflexivity |]. discriminate.
Qed.


End Page.

(** ** The sliders *)

Lemma floor_unique (x : Q) (k : Z) :
  (inject_Z k <= x < inject_Z k + 1)%Q -> Qfloor x = k.
Proof.
  intros [Lo Hi].
  pose proof (Qfloor_le x) as F1. pose proof (Qlt_floor x) as F2.
  rewrite inject_Z_plus in F2. change (inject_Z 1) with 1%Q in F2.
  assert (A : (inject_Z (Qfloor x) < inject_Z (k + 1))%Q)
    by (rewrite inject_Z_plus; change (inject_Z 1) with 1%Q; lra).
  assert (B : (inject_Z k < inject_Z (Qfloor x + 1))%Q)
    by (rewrite inject_Z_plus; change (inject_Z 1) with 1%Q; lra).
  rewrite <- Zlt_Qlt in A, B. lia.
Qed.

Lemma is_integer_spec (x : Q) :
  InputSlider.is_integer x = true -> (x == inject_Z (Qfloor x))%Q.
Proof. apply Qeq_bool_eq. Qed.

Lemma scale_pos (d : nat) : (0 < inject_Z (10 ^ Z.of_nat d))%Q.
Proof.
  change 0%Q with (inject_Z 0). rewrite <- Zlt_Qlt. apply Z.pow_pos_nonneg; lia.
Qed.

Section Slider.

Local Open Scope Q_scope.
Import InputSlider.

Lemma round_integer (k : Z) : round (inject_Z k) = k.
Proof. apply floor_unique. lra. Qed.

Lemma round_near (x : Q) : - (1 # 2) <= inject_Z (round x) - x <= 1 # 2.
Proof.
  unfold round.
  pose proof (Qfloor_le (x + (1 # 2))) as F1.
  pose proof (Qlt_floor (x + (1 # 2))) as F2.
  rewrite inject_Z_plus in F2. change (inject_Z 1) with 1 in F2. lra.
Qed.

Lemma round_between (a b : Z) (x : Q) :
  inject_Z a <= x <= inject_Z b -> (a <= round x <= b)%Z.
Proof.
  intros [Lo Hi]. unfold round. split.
  - rewrite <- (Qfloor_Z a). apply Qfloor_resp_le. lra.
  - rewrite <- (round_integer b). apply Qfloor_resp_le. lra.
Qed.

(** Writing a number to [d] digits changes nothing when it has no more. *)
Lemma toFixed_exact (x : Q) (d : nat) (k : Z) :
  x * inject_Z (10 ^ Z.of_nat d) == inject_Z k -> toFixed x d == x.
Proof.
  intros E. pose proof (scale_pos d) as P. unfold toFixed. cbv zeta.
  set (scale := inject_Z (10 ^ Z.of_nat d)) in *.
  destruct (Qle_bool 0 x).
  - rewrite (floor_unique (x * scale + (1 # 2)) k) by lra.
    rewrite <- E. field. lra.
  - rewrite (floor_unique (- x * scale + (1 # 2)) (- k))
      by (rewrite inject_Z_opp; lra).
    rewrite inject_Z_opp, <- E. field. lra.
Qed.

Variable p : Props.

Lemma clamped_between (x : Q) :
  min p <= max p -> min p <= clamped p x <= max p.
Proof.
  intros H. unfold clamped.
  destruct (Q.min_spec (max p) (Qmax (min p) x)) as [[C E] | [C E]];
    destruct (Q.max_spec (min p) x) as [[C' E'] | [C' E']];
    rewrite E in *; rewrite ?E' in *; lra.
Qed.

Lemma clamped_inside (x : Q) : min p <= x <= max p -> clamped p x == x.
Proof.
  intros [Lo Hi]. unfold clamped.
  rewrite (Q.max_r (min p) x Lo). apply Q.min_r. exact Hi.
Qed.

Hypothesis step_pos : 0 < step p.
Hypothesis step_decimal :
  is_integer (step p * inject_Z (10 ^ Z.of_nat (decimals p))) = true.

(** The value handed to [onChange] is the snapped one: the digits of the
    step are enough to write it. *)
Lemma commit_snapped (x : Q) :
  exists v, commit p (Some x) = Some v /\ v == snapped p x.
Proof.
  eexists. split; [reflexivity |].
  apply is_integer_spec in step_decimal.
  set (K := Qfloor (step p * inject_Z (10 ^ Z.of_nat (decimals p)))) in *.
  apply (toFixed_exact _ _ (round (clamped p x / step p) * K)).
  unfold snapped. rewrite inject_Z_mult, <- step_decimal. ring.
Qed.

Lemma snapped_near (x : Q) : Qabs (snapped p x - clamped p x) <= step p / 2.
Proof.
  unfold snapped. pose proof (round_near (clamped p x / step p)) as [Lo Hi].
  set (r := inject_Z (round (clamped p x / step p))) in *.
  assert (E : clamped p x == clamped p x / step p * step p) by (field; lra).
  apply Qabs_Qle_condition.
  assert (D : r * step p - clamped p x == (r - clamped p x / step p) * step p)
    by (rewrite E at 1; ring).
  rewrite D. split.
  - setoid_replace (- (step p / 2)) with (- (1 # 2) * step p) by field.
    apply Qmult_le_compat_r; lra.
  - setoid_replace (step p / 2) with ((1 # 2) * step p) by field.
    apply Qmult_le_compat_r; lra.
Qed.

Lemma on_grid_quotient (y : Q) :
  is_integer (y / step p) = true -> y == inject_Z (Qfloor (y / step p)) * step p.
Proof.
  intros G. apply is_integer_spec in G. rewrite <- G. field. lra.
Qed.

Lemma snapped_between (x : Q) :
  min p <= max p ->
  is_integer (min p / step p) = true ->
  is_integer (max p / step p) = true ->
  min p <= snapped p x <= max p.
Proof.
  intros Hm Ga Gb. pose proof (clamped_between x Hm) as [Lo Hi].
  pose proof (on_grid_quotient _ Ga) as Ea. pose proof (on_grid_quotient _ Gb) as Eb.
  apply is_integer_spec in Ga, Gb.
  set (a := Qfloor (min p / step p)) in *. set (b := Qfloor (max p / step p)) in *.
  assert (Q1 : inject_Z a <= clamped p x / step p).
  { rewrite <- Ga. unfold Qdiv. apply Qmult_le_compat_r; [exact Lo |].
    apply Qinv_le_0_compat. lra. }
  assert (Q2 : clamped p x / step p <= inject_Z b).
  { rewrite <- Gb. unfold Qdiv. apply Qmult_le_compat_r; [exact Hi |].
    apply Qinv_le_0_compat. lra. }
  destruct (round_between a b _ (conj Q1 Q2)) as [Ra Rb].
  unfold snapped. rewrite Zle_Qle in Ra, Rb.
  set (r := inject_Z (round (clamped p x / step p))) in *.
  assert (A : inject_Z a * step p <= r * step p)
    by (apply Qmult_le_compat_r; lra).
  assert (B : r * step p <= inject_Z b * step p)
    by (apply Qmult_le_compat_r; lra).
  lra.
Qed.

Lemma snapped_fixed (x : Q) :
  min p <= x <= max p -> is_integer (x / step p) = true -> snapped p x == x.
Proof.
  intros Hx G. unfold snapped, round. rewrite (clamped_inside x Hx).
  pose proof (on_grid_quotient _ G) as E. apply is_integer_spec in G.
  assert (R : Qfloor (x / step p + (1 # 2)) = Qfloor (x / step p)).
  { apply floor_unique. lra. }
  rewrite R. symmetry. exact E.
Qed.

End Slider.

Lemma plainly_written_pos (x : Q) : InputSlider.plainly_written x -> 0 < x.
Proof. intros [H _]. lra. Qed.

Section SliderProperties.

Local Open Scope Q_scope.
Import InputSlider.

Variable p : Props.

(** X13. A typed number is committed on the step grid, at most half a step
    from the number clamped to the range (the step being written without an
    exponent, and a decimal fraction whose digits [decimals] counts); and if
    the ends of the range are on the grid, the committed value lies within
    the range. *)
Theorem commit_on_grid (x : Q) :
  plainly_written (step p) ->
  is_integer (step p * inject_Z (10 ^ Z.of_nat (decimals p))) = true ->
  exists v k,
    commit p (Some x) = Some v
    /\ v == inject_Z k * step p
    /\ Qabs (v - clamped p x) <= step p / 2
    /\ (min p <= max p ->
        is_integer (min p / step p) = true ->
        is_integer (max p / step p) = true ->
        min p <= v <= max p).
Proof.
  intros Hw Hd. pose proof (plainly_written_pos _ Hw) as Hs.
  destruct (commit_snapped p Hd x) as (v & Hc & Ev).
  exists v, (round (clamped p x / step p)).
  split; [exact Hc |]. rewrite Ev.
  split; [reflexivity |]. split; [apply (snapped_near p Hs) |].
  apply (snapped_between p Hs).
Qed.

(** X14. A number that lies within the range and on the step grid is
    committed as it is; so committing a committed value changes nothing. *)
Theorem commit_idempotent (x : Q) :
  plainly_written (step p) ->
  is_integer (step p * inject_Z (10 ^ Z.of_nat (decimals p))) = true ->
  min p <= max p ->
  is_integer (min p / step p) = true ->
  is_integer (max p / step p) = true ->
  (min p <= x <= max p -> is_integer (x / step p) = true ->
   exists v, commit p (Some x) = Some v /\ v == x)
  /\ exists v v',
       commit p (Some x) = Some v /\ commit p (Some v) = Some v' /\ v' == v.
Proof.
  intros Hw Hd Hm Ga Gb. pose proof (plainly_written_pos _ Hw) as Hs.
  assert (Fix : forall y, min p <= y <= max p -> is_integer (y / step p) = true ->
                exists v, commit p (Some y) = Some v /\ v == y).
  { intros y Hy Gy. destruct (commit_snapped p Hd y) as (v & Hc & Ev).
    exists v. split; [exact Hc |]. rewrite Ev. apply (snapped_fixed p Hs y Hy Gy). }
  split; [apply Fix |].
  destruct (commit_snapped p Hd x) as (v & Hc & Ev).
  assert (Hv : min p <= v <= max p)
    by (rewrite Ev; apply (snapped_between p Hs x Hm Ga Gb)).
  assert (Gv : is_integer (v / step p) = true).
  { apply Qeq_bool_iff.
    assert (E : v / step p == inject_Z (round (clamped p x / step p))).
    { rewrite Ev. unfold snapped. field. lra. }
    rewrite E, Qfloor_Z. reflexivity. }
  destruct (Fix v Hv Gv) as (v' & Hc' & Ev').
  exists v, v'. split; [exact Hc |]. split; [exact Hc' | exact Ev'].
Qed.

(** X15. The filled share of the track is between 0 and 100 percent for a
    value within a non-empty range, 0 at the lower end and 100 at the
    upper. *)
Theorem pct_within (Hr : min p < max p) (Hv : min p <= value p <= max p) :
  0 <= pct p <= 100
  /\ (value p == min p -> pct p == 0)
  /\ (value p == max p -> pct p == 100).
Proof.
  unfold pct. set (w := max p - min p). assert (Hw : 0 < w) by (unfold w; lra).
  assert (E : value p - min p == (value p - min p) / w * w) by (field; lra).
  assert (Lo : 0 <= (value p - min p) / w).
  { unfold Qdiv. apply Qmult_le_0_compat; [lra |]. apply Qinv_le_0_compat. lra. }
  assert (Hi : (value p - min p) / w <= 1).
  { apply Qle_shift_div_r; [exact Hw | unfold w; lra]. }
  split.
  - clear E. revert Lo Hi. generalize ((value p - min p) / w). intros q Lo Hi. lra.
  - split; intros Hz.
    + rewrite Hz. field. lra.
    + rewrite Hz. fold w. field. lra.
Qed.

End SliderProperties.

(** ** The sliders of the page *)

Section PageSliders.

Local Open Scope Q_scope.
Import InputSlider.

Variable inputs : Inputs Q.

Lemma well_formed_spec (p : Props) :
  well_formed p = true ->
  plainly_written (step p)
  /\ is_integer (step p * inject_Z (10 ^ Z.of_nat (decimals p))) = true
  /\ min p <= max p
  /\ is_integer (min p / step p) = true
  /\ is_integer (max p / step p) = true.
Proof.
  unfold well_formed. rewrite !andb_true_iff, negb_true_iff.
  intros (((((Hl & Hs) & Hd) & Hm) & Ga) & Gb).
  split; [| split; [exact Hd | split; [apply Qle_bool_iff, Hm | split; assumption]]].
  split; [apply Qle_bool_iff, Hl |].
  apply Qnot_le_lt. intros C. apply Qle_bool_iff in C. congruence.
Qed.

Lemma sliders_well_formed : forallb well_formed (App.sliders inputs) = true.
Proof. vm_compute. reflexivity. Qed.

(** X16. Whatever the state and whatever number is typed into any of the
    thirteen sliders of the page, the value handed to [onChange] lies within
    that slider's range and on its step grid, at most half a step from the
    typed number clamped to the range. *)
Theorem page_commit_in_range (x : Q) :
  Forall (fun p =>
            exists v k,
              commit p (Some x) = Some v
              /\ min p <= v <= max p
              /\ v == inject_Z k * step p
              /\ Qabs (v - clamped p x) <= step p / 2)
         (App.sliders inputs).
Proof.
  apply Forall_forall. intros p Hp.
  pose proof sliders_well_formed as W. rewrite forallb_forall in W.
  destruct (well_formed_spec p (W p Hp)) as (Hw & Hd & Hm & Ga & Gb).
  pose proof (plainly_written_pos _ Hw) as Hs.
  destruct (commit_snapped p Hd x) as (v & Hc & Ev).
  exists v, (round (clamped p x / step p)).
  split; [exact Hc |]. rewrite Ev.
  split; [apply (snapped_between p Hs x Hm Ga Gb) |].
  split; [reflexivity | apply (snapped_near p Hs)].
Qed.

(** X17. A state whose every field lies within its slider's range meets all
    that the engine's guarantees ask of the inputs: the amounts and rates
    are non-negative, the down payment is at most the price, the loan is
    positive, the term and the horizon are at least one year; and
    [calculate] returns a result, of at most 30 snapshots. *)
Theorem sliders_keep_engine_in_range :
  App.within_sliders inputs ->
  nonnegative_inputs inputs
  /\ downPaymentPct inputs <= 100
  /\ 0 < loanAmount inputs
  /\ (1 <= loanTermYears inputs)%Z
  /\ (1 <= yearsToAnalyze inputs)%Z
  /\ exists r,
       calculate inputs = inr r
       /\ (1 <= length (CalculationResult.yearlyData r) <= 30)%nat.
Proof.
  unfold App.within_sliders, App.sliders. intros H.
  repeat match type of H with
         | Forall _ (_ :: _) =>
             let H1 := fresh "R" in
             apply Forall_cons_iff in H; destruct H as [H1 H];
             cbn [min max value] in H1
         end.
  clear H.
  assert (HT : (10 <= loanTermYears inputs <= 30)%Z).
  { destruct R2 as [A B]. split; rewrite Zle_Qle; assumption. }
  assert (HY : (1 <= yearsToAnalyze inputs <= 30)%Z).
  { destruct R11 as [A B]. split; rewrite Zle_Qle; assumption. }
  split; [unfold nonnegative_inputs; repeat split; lra |].
  split; [lra |].
  split.
  { rewrite loanAmount_eq, downPayment_eq.
    assert (0 < homePrice inputs * (1 - downPaymentPct inputs / 100))
      by (apply Qmult_lt_0_compat; qlra).
    qlra. }
  split; [lia |]. split; [lia |].
  destruct (horizon_nat inputs (proj1 HY)) as [n Hn].
  destruct (calculate_after_years inputs n Hn) as (r & Hr & Hd & _).
  exists r. split; [exact Hr |]. rewrite Hd, yearlyData_length. lia.
Qed.

End PageSliders.

(** ** The further properties on the samples *)

Lemma summary_of_last_snapshot_sample :
  exists r last,
    calculate sample = inr r
    /\ index (CalculationResult.yearlyData r)
             (Z.of_nat (length (CalculationResult.yearlyData r)) - 1) = Some last
    /\ CalculationResult.totalBuyCost r = YearlySnapshot.cumulativeBuyCost last
    /\ CalculationResult.totalRentCost r = YearlySnapshot.cumulativeRentCost last
    /\ CalculationResult.buyNetWorthFinal r = YearlySnapshot.buyNetWorth last
    /\ CalculationResult.rentNetWorthFinal r = YearlySnapshot.rentNetWorth last.
Proof. apply (summary_of_last_snapshot sample). cbn. lia. Defined.

Lemma horizon_prefix_sample :
  exists r r',
    calculate (set_yearsToAnalyze 1 sample) = inr r
    /\ calculate (set_yearsToAnalyze 2 sample) = inr r'
    /\ CalculationResult.yearlyData r
       = firstn 1 (CalculationResult.yearlyData r')
    /\ (forall y, CalculationResult.breakevenYear r = Some y ->
                  CalculationResult.breakevenYear r' = Some y).
Proof. apply (horizon_prefix sample 1 2). lia. Defined.









Lemma breakeven_badge_sample :
  exists r,
    calculate sample_booming = inr r
    /\ App.breakevenBadge r <> App.zero
    /\ App.breakevenBadge r = App.badge 1.
Proof.
  destruct (breakeven_badge sample_booming) as (r & Hr & A & _ & C); [cbn; lia |].
  exists r. split; [exact Hr |]. split; [exact A |].
  apply (C 1%Z).
  change r with (returned (inr r) r). rewrite <- Hr. vm_compute. reflexivity.
Defined.


Lemma sample_slider_written :
  InputSlider.plainly_written (InputSlider.step sample_slider).
Proof. split; [apply Qle_bool_iff | apply Qlt_alt]; reflexivity. Qed.

Lemma commit_on_grid_sample :
  exists v k,
    InputSlider.commit sample_slider (Some 6.93) = Some v
    /\ v == inject_Z k * 0.05
    /\ Qabs (v - InputSlider.clamped sample_slider 6.93) <= 0.05 / 2
    /\ 2 <= v <= 12.
Proof.
  destruct (commit_on_grid sample_slider 6.93 sample_slider_written eq_refl)
    as (v & k & Hc & Hk & Hn & Hr).
  exists v, k. split; [exact Hc |]. split; [exact Hk |]. split; [exact Hn |].
  apply Hr; [cbn; lra | reflexivity | reflexivity].
Defined.

Lemma commit_idempotent_sample :
  (exists v, InputSlider.commit sample_slider (Some 6.95) = Some v /\ v == 6.95)
  /\ exists v v',
       InputSlider.commit sample_slider (Some 6.95) = Some v
       /\ InputSlider.commit sample_slider (Some v) = Some v' /\ v' == v.
Proof.
  destruct (commit_idempotent sample_slider 6.95 sample_slider_written eq_refl
              ltac:(cbn; lra) eq_refl eq_refl) as [A B].
  split; [| exact B]. apply A; [cbn; lra | reflexivity].
Defined.

Lemma pct_within_sample :
  0 <= InputSlider.pct sample_slider <= 100
  /\ (InputSlider.value sample_slider == InputSlider.min sample_slider ->
      InputSlider.pct sample_slider == 0)
  /\ (InputSlider.value sample_slider == InputSlider.max sample_slider ->
      InputSlider.pct sample_slider == 100).
Proof. apply (pct_within sample_slider); cbn; lra. Defined.

Lemma baseline_within_sliders : App.within_sliders baseline.
Proof.
  unfold App.within_sliders.
  repeat (constructor; [split; apply Qle_bool_iff; reflexivity |]).
  constructor.
Qed.

Lemma sliders_keep_engine_in_range_sample :
  nonnegative_inputs baseline
  /\ downPaymentPct baseline <= 100
  /\ 0 < loanAmount baseline
  /\ (1 <= loanTermYears baseline)%Z
  /\ (1 <= yearsToAnalyze baseline)%Z
  /\ exists r,
       calculate baseline = inr r
       /\ (1 <= length (CalculationResult.yearlyData r) <= 30)%nat.
Proof. apply (sliders_keep_engine_in_range baseline baseline_within_sliders). Defined.
